(** * Live-call monitoring core of the hotel admin dashboard

    Shallow embedding of the [LiveCalls] React component
    (pages/LiveCalls.tsx): the session array held in [useState], the
    one-second duration ticker, the ten-second arrival simulator with its
    removal timers, the two handlers [handleCallAction] and [endCall], the
    derived [stats] object and the part of the rendering that decides which
    buttons a call card offers.

    Modelling conventions.
    - A JS array of call objects is a [list Call]; [Array.prototype.map],
      [filter] and [length] are [List.map], [List.filter] and [List.length].
    - [duration] is a JS number that the code only ever initialises with small
      integers and increments by one; it is modelled as a [Z] (the addition
      is exact far below 2^53).
    - [startTime] holds the epoch-millisecond instant whose ISO-8601 rendering
      the code stores.
    - [Math.random()] and [Date.now()] are inputs of the event that consumes
      them: a binary64 number of [0,1) and an integer clock reading.  The
      arithmetic on draws is IEEE-754 binary64 with rounding to nearest,
      ties to even ([SpecFloat] at precision 53).
    - [setLiveCalls (prev => f prev)] is a functional state update; updates
      run one after the other on the single JS thread, so every handler, tick
      and timer callback is one atomic state transformer. *)

From Stdlib Require Import List String Ascii ZArith Lia Bool Permutation.
From Stdlib Require Import DecimalString DecimalZ.
From Stdlib Require Import Floats.SpecFloat.
Import ListNotations.

Local Open Scope Z_scope.
Local Open Scope string_scope.

(** ** Data model *)

Module LiveCalls.

(** One element of [liveCalls] (the object literal of lines 20-49 and
    101-110).  [status] and [sentiment] are plain strings in the code. *)
Record Call : Type := mkCall {
  id : string;
  callerNumber : string;
  callerName : string;
  intent : string;
  sentiment : string;
  duration : Z;
  startTime : Z;
  status : string
}.

(** [{ ...call, duration: d }] *)
Definition with_duration (call : Call) (d : Z) : Call :=
  mkCall (id call) (callerNumber call) (callerName call) (intent call)
         (sentiment call) d (startTime call) (status call).

(** [{ ...call, status: st }] *)
Definition with_status (call : Call) (st : string) : Call :=
  mkCall (id call) (callerNumber call) (callerName call) (intent call)
         (sentiment call) (duration call) (startTime call) st.

(** JS numbers that take part in rounded arithmetic are binary64 values. *)
Definition prec : Z := 53.
Definition emax : Z := 1024.
Definition double : Type := spec_float.

(** An integer literal that is exactly representable, as a double. *)
Definition double_of_Z (z : Z) : double := binary_normalize prec emax z 0 false.

(** [x * y], [x + y] and [x < y] on doubles. *)
Definition fmul (x y : double) : double := SFmul prec emax x y.
Definition fadd (x y : double) : double := SFadd prec emax x y.
Definition flt (x y : double) : bool := SFltb x y.
Definition fle (x y : double) : bool := SFleb x y.

(** A pending [setTimeout] of the simulator: the delay handed to
    [setTimeout] (milliseconds) and the id captured by its callback. *)
Record Timer : Type := mkTimer {
  delay : double;
  target : string
}.

(** The component state: the four [useState] cells plus the removal timers
    that are still pending. *)
Record State : Type := mkState {
  liveCalls : list Call;
  selectedCall : option string;
  isListening : bool;
  isMuted : bool;
  timers : list Timer
}.

(** [initialLiveCalls]; [t1 t2 t3] are the three readings of [Date.now()]
    taken while the module is loaded. *)
Definition initialLiveCalls (t1 t2 t3 : Z) : list Call :=
  [ mkCall "live-1" "+91 98765 43210" "Rajesh Kumar" "Booking Inquiry"
           "positive" 125 (t1 - 125000) "active";
    mkCall "live-2" "+91 98765 43211" "Priya Sharma" "Room Service"
           "neutral" 87 (t2 - 87000) "active";
    mkCall "live-3" "+91 98765 43212" "Waiting..." "Unknown"
           "neutral" 23 (t3 - 23000) "on_hold" ].

Definition initialState (t1 t2 t3 : Z) : State :=
  mkState (initialLiveCalls t1 t2 t3) None false false [].

(** ** Handlers as state transformers *)

(** What a call of a handler hands back.  The specification speaks of three
    outcomes; a JS function without a [return] statement hands back
    [undefined]. *)
Inductive Outcome : Type := Success | NotFound | InvalidTransition.

Inductive Returned : Type :=
| undefined
| outcome (o : Outcome).

Definition Handler (A : Type) : Type := State -> A * State.

Definition ret {A} (a : A) : Handler A := fun s => (a, s).

Definition bind {A B} (m : Handler A) (k : A -> Handler B) : Handler B :=
  fun s => let (a, s') := m s in k a s'.

Notation "x <- m ;; k" := (bind m (fun x => k))
  (at level 61, m at next level, right associativity).
Notation "m ;;; k" := (bind m (fun _ => k))
  (at level 61, right associativity).

Definition setLiveCalls (f : list Call -> list Call) : Handler unit :=
  fun s => (tt, mkState (f (liveCalls s)) (selectedCall s) (isListening s)
                        (isMuted s) (timers s)).

Definition setSelectedCall (v : option string) : Handler unit :=
  fun s => (tt, mkState (liveCalls s) v (isListening s) (isMuted s) (timers s)).

Definition setIsListening (b : bool) : Handler unit :=
  fun s => (tt, mkState (liveCalls s) (selectedCall s) b (isMuted s) (timers s)).

Definition setIsMuted (b : bool) : Handler unit :=
  fun s => (tt, mkState (liveCalls s) (selectedCall s) (isListening s) b
                        (timers s)).

Definition setTimers (f : list Timer -> list Timer) : Handler unit :=
  fun s => (tt, mkState (liveCalls s) (selectedCall s) (isListening s)
                        (isMuted s) (f (timers s))).

Definition get {A} (proj : State -> A) : Handler A := fun s => (proj s, s).

Definition exec {A} (m : Handler A) (s : State) : State := snd (m s).
Definition reply {A} (m : Handler A) (s : State) : A := fst (m s).

(** ** Action handlers (lines 131-146) *)

(** [handleCallAction]: one functional update of [liveCalls]; no [return]. *)
Definition handleCallAction (callId action : string) : Handler Returned :=
  setLiveCalls (fun prev =>
    map (fun call =>
           if id call =? callId
           then with_status call
                  (if action =? "answer" then "active" else "on_hold")
           else call) prev) ;;;
  ret undefined.

(** [call.id !== callId] *)
Definition id_differs (callId : string) (call : Call) : bool :=
  negb (id call =? callId).

Definition option_string_eqb (a : option string) (b : string) : bool :=
  match a with
  | Some x => x =? b
  | None => false
  end.

(** [endCall]: filters the array, then clears the selection when it is the
    call just ended; no [return]. *)
Definition endCall (callId : string) : Handler Returned :=
  setLiveCalls (fun prev => filter (id_differs callId) prev) ;;;
  sel <- get selectedCall ;;
  (if option_string_eqb sel callId then setSelectedCall None else ret tt) ;;;
  ret undefined.

(** ** Duration ticker (lines 83-94) *)

Definition tick : Handler unit :=
  setLiveCalls (fun prev =>
    map (fun call => with_duration call (duration call + 1)) prev).

(** ** Arrival simulator (lines 97-122) *)

(** Decimal rendering of an integer-valued number in a template literal. *)
Definition show_Z (z : Z) : string := NilEmpty.string_of_int (Z.to_int z).

(** A result of [Math.random()]: a double that is at least 0 and below 1. *)
Record Draw : Type := mkDraw {
  draw : double;
  draw_valid : valid_binary prec emax draw = true;
  draw_unit : fle (S754_zero false) draw && flt draw (double_of_Z 1) = true
}.

(** The literal [0.8] is the double 7205759403792794 * 2^-53
    (0x1.999999999999ap-1); the test is [Math.random() > 0.8]. *)
Definition arrivalThreshold : double :=
  S754_finite false 7205759403792794 (-53).

Definition arrives (r : Draw) : bool := flt arrivalThreshold (draw r).

(** [Math.floor] of a finite double, as an integer. *)
Definition floorZ (x : double) : option Z :=
  match x with
  | S754_zero _ => Some 0
  | S754_finite sign m e =>
      Some (Z.shiftl (if sign then Z.neg m else Z.pos m) e)
  | S754_infinity _ | S754_nan => None
  end.

(** [`${Math.floor(x)}`]: the decimal digits of the floor.  (Doubles of
    magnitude 1e21 and more print with an exponent in JS; the product of a
    draw and 1e10 stays far below.) *)
Definition floorString (x : double) : string :=
  match floorZ x with
  | Some z => show_Z z
  | None =>
      match x with
      | S754_infinity false => "Infinity"
      | S754_infinity true => "-Infinity"
      | _ => "NaN"
      end
  end.

(** The object literal [newCall]: [now] is [Date.now()], [rnum] the draw
    used for the caller number, [started] the instant of [new Date()]. *)
Definition newCall (now : Z) (rnum : Draw) (started : Z) : Call :=
  mkCall ("live-" ++ show_Z now)
         ("+91 " ++ floorString (fmul (draw rnum) (double_of_Z 10000000000)))
         "Incoming Call..." "Unknown" "neutral" 0 started "on_hold".

(** [Math.random() * 30000 + 10000], the delay of the removal timer. *)
Definition lifespan (rlife : Draw) : double :=
  fadd (fmul (draw rlife) (double_of_Z 30000)) (double_of_Z 10000).

(** One run of the [setInterval] callback of the simulator.  [rarr] is the
    first draw; the remaining arguments are only consumed on arrival. *)
Definition simulate (rarr : Draw) (now : Z) (rnum : Draw) (started : Z)
  (rlife : Draw)
  : Handler unit :=
  if arrives rarr then
    let c := newCall now rnum started in
    setLiveCalls (fun prev => (prev ++ [c])%list) ;;;
    setTimers (fun ts => (ts ++ [mkTimer (lifespan rlife) (id c)])%list)
  else ret tt.

Fixpoint remove_nth {A} (k : nat) (l : list A) : list A :=
  match k, l with
  | _, [] => []
  | O, _ :: l' => l'
  | S k', x :: l' => x :: remove_nth k' l'
  end.

(** The callback of a removal timer (line 116), run for the [k]-th pending
    timer, which is thereby spent. *)
Definition timerCallback (k : nat) : Handler unit :=
  ts <- get timers ;;
  match nth_error ts k with
  | Some t =>
      setTimers (remove_nth k) ;;;
      setLiveCalls (fun prev => filter (id_differs (target t)) prev)
  | None => ret tt
  end.

(** ** Stats (lines 124-129) *)

Record Stats : Type := mkStats {
  activeCalls : nat;
  waitingCalls : nat;
  totalAgents : nat;
  availableAgents : nat
}.

(** Computed during a render from the [liveCalls] of that render. *)
Definition stats (s : State) : Stats :=
  mkStats
    (List.length (filter (fun call => status call =? "active") (liveCalls s)))
    (List.length (filter (fun call => status call =? "on_hold") (liveCalls s)))
    5 2.

(** ** The buttons of a call card (lines 251-307) *)

Inductive Button : Type := Answer | Listen | Mute | EndCall.

(** Whether the card of [call] contains the button. *)
Definition rendered (call : Call) (b : Button) : bool :=
  match b with
  | Answer => status call =? "on_hold"
  | Listen | Mute => status call =? "active"
  | EndCall => true
  end.

(** The highlighted/plain state a card shows for its Listen and Mute
    buttons ([None]: the button is not on the card). *)
Definition listenShown (s : State) (call : Call) : option bool :=
  if rendered call Listen then Some (isListening s) else None.

Definition muteShown (s : State) (call : Call) : option bool :=
  if rendered call Mute then Some (isMuted s) else None.

(** The [onClick] of each button of the card of [call]. *)
Definition onClick (b : Button) (call : Call) : Handler Returned :=
  match b with
  | Answer => handleCallAction (id call) "answer"
  | Listen => l <- get isListening ;; setIsListening (negb l) ;;; ret undefined
  | Mute => m <- get isMuted ;; setIsMuted (negb m) ;;; ret undefined
  | EndCall => endCall (id call)
  end.

(** ** Events *)

(** Everything that can run against the component state. *)
Inductive Event : Type :=
| Tick
| Simulate (rarr : Draw) (now : Z) (rnum : Draw) (started : Z) (rlife : Draw)
| TimerFires (k : nat)
| Click (i : nat) (b : Button)
| SelectCard (i : nat)
| CloseDetails.

(** A click exists only for a button that is on the [i]-th card. *)
Definition dispatch (e : Event) (s : State) : State :=
  match e with
  | Tick => exec tick s
  | Simulate rarr now rnum started rlife =>
      exec (simulate rarr now rnum started rlife) s
  | TimerFires k => exec (timerCallback k) s
  | Click i b =>
      match nth_error (liveCalls s) i with
      | Some call => if rendered call b then exec (onClick b call) s else s
      | None => s
      end
  | SelectCard i =>
      match nth_error (liveCalls s) i with
      | Some call => exec (setSelectedCall (Some (id call))) s
      | None => s
      end
  | CloseDetails => exec (setSelectedCall None) s
  end.

Definition run (es : list Event) (s : State) : State :=
  fold_left (fun st e => dispatch e st) es s.

Inductive Reachable : State -> Prop :=
| reach_init t1 t2 t3 : Reachable (initialState t1 t2 t3)
| reach_step e s : Reachable s -> Reachable (dispatch e s).

(** ** Relations used to state the properties *)

(** The fields of a call other than [duration] and [status]. *)
Definition same_identity (c c' : Call) : Prop :=
  id c' = id c /\ callerNumber c' = callerNumber c /\
  callerName c' = callerName c /\ intent c' = intent c /\
  sentiment c' = sentiment c /\ startTime c' = startTime c.

(** [duration >= 0]. *)
Definition nonneg_duration (c : Call) : Prop := 0 <= duration c.

(** How one event may change the array: every element rewritten in place
    without lowering its duration, some elements filtered out with the
    survivors untouched, or one call of duration 0 appended. *)
Inductive Advance : list Call -> list Call -> Prop :=
| adv_map (g : Call -> Call) (l : list Call) :
    (forall c, same_identity c (g c) /\ duration c <= duration (g c)) ->
    Advance l (map g l)
| adv_filter (p : Call -> bool) (l : list Call) :
    Advance l (filter p l)
| adv_append (c : Call) (l : list Call) :
    duration c = 0 ->
    Advance l (l ++ [c])%list.

Inductive AdvanceStar : list Call -> list Call -> Prop :=
| adv_refl l : AdvanceStar l l
| adv_next l1 l2 l3 : AdvanceStar l1 l2 -> Advance l2 l3 -> AdvanceStar l1 l3.

(** The rows of the specification's transition table that are served by
    [handleCallAction]: [answer] requires [on_hold], the other action
    ([hold]) requires [active]. *)
Definition table_precondition (action st : string) : bool :=
  if action =? "answer" then st =? "on_hold" else st =? "active".

(** ** Display helpers and the rest of the rendering *)

Fixpoint zeros (n : nat) : string :=
  match n with
  | O => ""
  | S n' => String "0" (zeros n')
  end.

(** [s.padStart(targetLength, '0')] *)
Definition padStart0 (targetLength : nat) (s : string) : string :=
  zeros (targetLength - String.length s) ++ s.

(** [formatDuration] (lines 52-56): [Math.floor(seconds / 60)] is the floor
    quotient, JS [%] the remainder that takes the sign of the dividend. *)
Definition formatDuration (seconds : Z) : string :=
  let minutes := seconds / 60 in
  let remainingSeconds := Z.rem seconds 60 in
  show_Z minutes ++ ":" ++ padStart0 2 (show_Z remainingSeconds).

(** Reading a run of decimal digits back as a number. *)
Definition read_Z (s : string) : option Z :=
  option_map Z.of_int (NilEmpty.int_of_string s).

(** [selectedCall && (...)] (line 313): the details panel is rendered for a
    selection that is neither [null] nor the empty string. *)
Definition panelOpen (s : State) : bool :=
  match selectedCall s with
  | Some x => negb (x =? "")
  | None => false
  end.

(** [liveCalls.find(c => c.id === selectedCall)] inside the open panel
    (lines 325-327); [None] when the panel is closed or has no body. *)
Definition detailsCall (s : State) : option Call :=
  if panelOpen s then
    match selectedCall s with
    | Some x => find (fun c => id c =? x) (liveCalls s)
    | None => None
    end
  else None.

(** [liveCalls.length === 0 && (...)] (line 405): the "No Active Calls"
    placeholder. *)
Definition noCallsShown (s : State) : bool :=
  Nat.eqb (List.length (liveCalls s)) 0.

(** The React keys of the cards ([key={call.id}]). *)
Definition keys (s : State) : list string := map id (liveCalls s).

(** An event whose arriving call, if any, gets an id no card carries. *)
Definition fresh_arrival (e : Event) (s : State) : Prop :=
  match e with
  | Simulate rarr now _ _ _ =>
      arrives rarr = true -> ~ In ("live-" ++ show_Z now) (keys s)
  | _ => True
  end.

(** A call created by the simulator, told by its placeholder name. *)
Definition simulated (c : Call) : Prop := callerName c = "Incoming Call...".

(** The check that a number below 60 is printed on two characters that
    read back as that number. *)
Definition two_digit_ok (n : nat) : bool :=
  let t := padStart0 2 (show_Z (Z.of_nat n)) in
  Nat.eqb (String.length t) 2 &&
  match read_Z t with
  | Some z => Z.eqb z (Z.of_nat n)
  | None => false
  end.

(** The statuses and sentiments the code itself writes. *)
Definition known_status (c : Call) : Prop :=
  status c = "active" \/ status c = "on_hold".

Definition known_sentiment (c : Call) : Prop :=
  sentiment c = "positive" \/ sentiment c = "neutral".

(** A pending removal timer is aimed at the id of the call. *)
Definition has_timer (s : State) (c : Call) : Prop :=
  exists t, In t (timers s) /\ target t = id c.

(** Ids are built as [live-...]. *)
Definition live_prefixed (c : Call) : Prop :=
  exists rest, id c = "live-" ++ rest.

(** Neither active nor on_hold. *)
Definition other_status (call : Call) : bool :=
  negb (status call =? "active") && negb (status call =? "on_hold").

(** Counting the calls of one status, call by call. *)
Fixpoint count_status (st : string) (l : list Call) : nat :=
  match l with
  | [] => 0%nat
  | c :: l' =>
      ((if (status c =? st)%string then 1 else 0) + count_status st l')%nat
  end.

(** The double [m * 2^e], for sample draws. *)
Definition dyadic (m : positive) (e : Z) : double :=
  binary_normalize prec emax (Z.pos m) e false.

(** Sample draws: 7/8 (above the threshold), 1/2, 1/4, the threshold itself,
    the largest double below 1 and 4053239665083806 / 2^52. *)
Definition seven_eighths : Draw := mkDraw (dyadic 7 (-3)) eq_refl eq_refl.
Definition one_half : Draw := mkDraw (dyadic 1 (-1)) eq_refl eq_refl.
Definition one_quarter : Draw := mkDraw (dyadic 1 (-2)) eq_refl eq_refl.
Definition at_threshold : Draw := mkDraw arrivalThreshold eq_refl eq_refl.
Definition below_one : Draw :=
  mkDraw (dyadic 9007199254740991 (-53)) eq_refl eq_refl.
Definition nine_tenths_up : Draw :=
  mkDraw (dyadic 4053239665083806 (-52)) eq_refl eq_refl.

(** ** Worked scenario of the specification *)

Example scenario_answer_end :
  let s0 := mkState [] None false false [] in
  let s1 := dispatch (Simulate seven_eighths 1700000000000 one_half 1700000000000 one_quarter) s0 in
  let s2 := dispatch (Click 0 Answer) s1 in
  let s3 := dispatch (Click 0 EndCall) s2 in
  map id (liveCalls s1) = ["live-1700000000000"] /\
  map callerNumber (liveCalls s1) = ["+91 5000000000"] /\
  (activeCalls (stats s2), waitingCalls (stats s2)) = (1%nat, 0%nat) /\
  liveCalls s3 = [].
Proof. vm_compute. repeat split; reflexivity. Qed.

(** ** Basic facts *)

Lemma with_duration_identity c d : same_identity c (with_duration c d).
Proof. unfold same_identity; simpl; repeat split. Qed.

Lemma with_status_identity c st : same_identity c (with_status c st).
Proof. unfold same_identity; simpl; repeat split. Qed.

Lemma same_identity_refl c : same_identity c c.
Proof. unfold same_identity; repeat split. Qed.

Lemma with_status_same c : with_status c (status c) = c.
Proof. destruct c; reflexivity. Qed.

Lemma state_eta s :
  mkState (liveCalls s) (selectedCall s) (isListening s) (isMuted s) (timers s)
  = s.
Proof. destruct s; reflexivity. Qed.

Lemma map_fixed {A} (f : A -> A) (l : list A) :
  Forall (fun x => f x = x) l -> map f l = l.
Proof.
  induction 1 as [|x l Hx _ IH]; simpl; [reflexivity|].
  now rewrite Hx, IH.
Qed.

Lemma filter_all {A} (p : A -> bool) (l : list A) :
  Forall (fun x => p x = true) l -> filter p l = l.
Proof.
  induction 1 as [|x l Hx _ IH]; simpl; [reflexivity|].
  now rewrite Hx, IH.
Qed.

Lemma filter_twice {A} (p : A -> bool) (l : list A) :
  filter p (filter p l) = filter p l.
Proof.
  apply filter_all, Forall_forall.
  intros x Hx. now apply filter_In in Hx.
Qed.

Lemma id_differs_true callId c : id_differs callId c = true <-> id c <> callId.
Proof.
  unfold id_differs. rewrite negb_true_iff.
  destruct (String.eqb_spec (id c) callId); split; congruence.
Qed.

Lemma filter_removes_id callId l :
  Forall (fun c => id c <> callId) (filter (id_differs callId) l).
Proof.
  apply Forall_forall. intros c Hc.
  apply filter_In in Hc. now apply id_differs_true.
Qed.

Lemma filter_absent_id callId l :
  Forall (fun c => id c <> callId) l -> filter (id_differs callId) l = l.
Proof.
  intros H. apply filter_all.
  eapply Forall_impl; [|exact H]. intros c. apply id_differs_true.
Qed.

(** ** The duration ticker *)

Lemma Forall2_map_self {A B} (R : A -> B -> Prop) (f : A -> B) (l : list A) :
  (forall x, R x (f x)) -> Forall2 R l (map f l).
Proof. intros H. induction l; simpl; constructor; auto. Qed.

Lemma simulate_liveCalls rarr now rnum started rlife s :
  liveCalls (exec (simulate rarr now rnum started rlife) s) =
  (liveCalls s ++ (if arrives rarr then [newCall now rnum started] else []))%list.
Proof.
  unfold simulate, exec. destruct (arrives rarr); simpl.
  - reflexivity.
  - now rewrite app_nil_r.
Qed.

(** C2. One tick of the duration ticker turns the array into an array of the
    same length in which the call at every position has its [duration]
    raised by exactly 1 and every other field (status and identity fields)
    as before; selection, flags and timers are untouched; on an empty array
    the tick changes nothing; a call that the simulator appends after the
    tick is the fresh [newCall] with duration 0, not advanced by that tick. *)
Theorem tick_advances_every_session (s : State) :
  Forall2 (fun c c' => duration c' = duration c + 1 /\
                       status c' = status c /\ same_identity c c')
          (liveCalls s) (liveCalls (exec tick s)) /\
  List.length (liveCalls (exec tick s)) = List.length (liveCalls s) /\
  selectedCall (exec tick s) = selectedCall s /\
  isListening (exec tick s) = isListening s /\
  isMuted (exec tick s) = isMuted s /\
  timers (exec tick s) = timers s /\
  (forall sel l m ts, exec tick (mkState [] sel l m ts) = mkState [] sel l m ts) /\
  (forall rarr now rnum started rlife,
      liveCalls (exec (simulate rarr now rnum started rlife) (exec tick s)) =
      (liveCalls (exec tick s) ++
         (if arrives rarr then [newCall now rnum started] else []))%list /\
      duration (newCall now rnum started) = 0).
Proof.
  repeat match goal with |- _ /\ _ => split end; try reflexivity.
  - unfold tick, exec; simpl.
    apply Forall2_map_self. intros c; simpl.
    repeat split.
  - unfold tick, exec; simpl. apply length_map.
  - intros. split; [apply simulate_liveCalls | reflexivity].
Qed.

(** The scenario of the specification: duration 23, five ticks later 28,
    status unchanged. *)
Example five_ticks :
  let s := run [Tick; Tick; Tick; Tick; Tick] (initialState 0 0 0) in
  map (fun c => (duration c, status c)) (liveCalls s) =
  [(130, "active"); (92, "active"); (28, "on_hold")].
Proof. reflexivity. Qed.

(** ** Stats *)

Lemma count_two_statuses (l : list Call) :
  (List.length (filter (fun call => (status call =? "active")%string) l) +
   List.length (filter (fun call => (status call =? "on_hold")%string) l)
   <= List.length l)%nat.
Proof.
  induction l as [|c l IH]; simpl; [lia|].
  destruct (String.eqb_spec (status c) "active") as [Ha|Ha];
    destruct (String.eqb_spec (status c) "on_hold") as [Hh|Hh]; simpl;
    try lia.
  rewrite Ha in Hh. discriminate.
Qed.

Lemma filter_length_count (st : string) (l : list Call) :
  List.length (filter (fun call => status call =? st) l) = count_status st l.
Proof.
  induction l as [|c l IH]; simpl; [reflexivity|].
  destruct (status c =? st); simpl; now rewrite IH.
Qed.

Lemma split_by_status (l : list Call) :
  Permutation l
    (filter (fun call => status call =? "active") l ++
     filter (fun call => status call =? "on_hold") l ++
     filter other_status l).
Proof.
  induction l as [|c l IH]; simpl; [constructor|].
  unfold other_status at 1.
  destruct (String.eqb_spec (status c) "active") as [Ha|Ha].
  - rewrite Ha. simpl. now constructor.
  - destruct (String.eqb_spec (status c) "on_hold") as [Hh|Hh]; simpl.
    + now apply Permutation_cons_app.
    + rewrite app_assoc. apply Permutation_cons_app.
      now rewrite <- app_assoc.
Qed.

Lemma filter_Forall_status (st : string) (l : list Call) :
  Forall (fun c => status c = st) (filter (fun call => status call =? st) l).
Proof.
  apply Forall_forall. intros c Hc. apply filter_In in Hc.
  now apply String.eqb_eq.
Qed.

(** C5. In the stats of any state, [activeCalls] is the number of calls whose
    status is active and [waitingCalls] the number of calls whose status is
    on_hold, both counted on the one [liveCalls] array of that state: the
    array splits into its active calls, its on_hold calls and the rest, the
    two counters being the sizes of the first two parts; so
    [activeCalls + waitingCalls] never exceeds the number of calls in that
    array. *)
Theorem stats_counts_within_total (s : State) :
  activeCalls (stats s) = count_status "active" (liveCalls s) /\
  waitingCalls (stats s) = count_status "on_hold" (liveCalls s) /\
  (exists act wait rest : list Call,
     Permutation (liveCalls s) (act ++ wait ++ rest) /\
     Forall (fun c => status c = "active") act /\
     Forall (fun c => status c = "on_hold") wait /\
     Forall (fun c => status c <> "active" /\ status c <> "on_hold") rest /\
     activeCalls (stats s) = List.length act /\
     waitingCalls (stats s) = List.length wait) /\
  (activeCalls (stats s) + waitingCalls (stats s)
   <= List.length (liveCalls s))%nat.
Proof.
  unfold stats; simpl.
  split; [apply filter_length_count|].
  split; [apply filter_length_count|].
  split; [|apply count_two_statuses].
  exists (filter (fun call => status call =? "active") (liveCalls s)),
         (filter (fun call => status call =? "on_hold") (liveCalls s)),
         (filter other_status (liveCalls s)).
  split; [apply split_by_status|].
  split; [apply filter_Forall_status|].
  split; [apply filter_Forall_status|].
  split; [|split; reflexivity].
  apply Forall_forall. intros c Hc. apply filter_In in Hc.
  destruct Hc as [_ Hc]. unfold other_status in Hc.
  apply andb_true_iff in Hc. destruct Hc as [Ha Hh].
  apply negb_true_iff in Ha, Hh.
  split; now apply String.eqb_neq.
Qed.

(** C9. [totalAgents] and [availableAgents] do not depend on the state:
    any two states, the empty one included, give the same two values, which
    are the constants 5 and 2. *)
Theorem stats_agents_are_constants (s1 s2 : State) :
  totalAgents (stats s1) = totalAgents (stats s2) /\
  availableAgents (stats s1) = availableAgents (stats s2) /\
  totalAgents (stats s1) = 5%nat /\
  availableAgents (stats s1) = 2%nat /\
  totalAgents (stats (mkState [] None false false [])) = totalAgents (stats s1) /\
  availableAgents (stats (mkState [] None false false [])) =
  availableAgents (stats s1).
Proof. repeat split. Qed.

(** ** Ending a call *)

Lemma endCall_run callId s :
  endCall callId s =
  (undefined,
   mkState (filter (id_differs callId) (liveCalls s))
           (if option_string_eqb (selectedCall s) callId
            then None else selectedCall s)
           (isListening s) (isMuted s) (timers s)).
Proof.
  unfold endCall, bind, setLiveCalls, get; simpl.
  destruct (option_string_eqb (selectedCall s) callId); reflexivity.
Qed.

Lemma timerCallback_liveCalls k t s :
  nth_error (timers s) k = Some t ->
  liveCalls (exec (timerCallback k) s) = filter (id_differs (target t)) (liveCalls s).
Proof.
  intros H. unfold timerCallback, exec, bind, get; simpl. now rewrite H.
Qed.

(** C4. [endCall] always runs to completion and hands back [undefined].
    After [endCall callId] no call of the array carries [callId]; a second
    [endCall callId] changes nothing at all; when the removal timer of the
    simulator has already removed the call, [endCall callId] leaves the
    array as it is, and so does the timer when it fires after [endCall];
    generally, on an array without that id, [endCall] leaves the array
    unchanged. *)
Theorem endCall_idempotent (callId : string) (s : State) :
  let s1 := exec (endCall callId) s in
  reply (endCall callId) s = undefined /\
  Forall (fun c => id c <> callId) (liveCalls s1) /\
  endCall callId s1 = (undefined, s1) /\
  (forall k t, nth_error (timers s) k = Some t -> target t = callId ->
     liveCalls (exec (endCall callId) (exec (timerCallback k) s))
     = liveCalls (exec (timerCallback k) s)) /\
  (forall k t, nth_error (timers s1) k = Some t -> target t = callId ->
     liveCalls (exec (timerCallback k) s1) = liveCalls s1) /\
  (Forall (fun c => id c <> callId) (liveCalls s) ->
     liveCalls (exec (endCall callId) s) = liveCalls s /\
     reply (endCall callId) s = undefined).
Proof.
  intros s1. subst s1. unfold reply.
  repeat match goal with |- _ /\ _ => split end.
  - now rewrite endCall_run.
  - unfold exec. rewrite endCall_run. simpl. apply filter_removes_id.
  - unfold exec. rewrite !endCall_run. simpl. rewrite filter_twice.
    destruct (selectedCall s) as [x|]; simpl; [|reflexivity].
    destruct (String.eqb_spec x callId) as [E|E]; simpl; [reflexivity|].
    apply String.eqb_neq in E. now rewrite E.
  - intros k t Hk Ht. unfold exec at 1. rewrite endCall_run; simpl.
    rewrite (timerCallback_liveCalls k t s Hk), Ht.
    apply filter_twice.
  - intros k t Hk Ht. rewrite (timerCallback_liveCalls k t _ Hk), Ht.
    unfold exec. rewrite endCall_run. simpl. apply filter_twice.
  - intros H. unfold exec. rewrite endCall_run. simpl.
    split; [now apply filter_absent_id | reflexivity].
Qed.

Lemma endCall_idempotent_witness :
  liveCalls (exec (endCall "live-9") (initialState 0 0 0))
  = liveCalls (initialState 0 0 0) /\
  reply (endCall "live-9") (initialState 0 0 0) = undefined.
Proof.
  apply (proj2 (proj2 (proj2 (proj2 (proj2
          (endCall_idempotent "live-9" (initialState 0 0 0))))))).
  repeat constructor; simpl; discriminate.
Defined.

(** The scenario of the specification: the operator ends call C before its
    removal timer fires; both complete and C is absent afterwards. *)
Example end_then_timeout :
  let s0 := mkState [] None false false [] in
  let s1 := dispatch (Simulate seven_eighths 7 one_half 7 one_quarter) s0 in
  let s2 := dispatch (Click 0 EndCall) s1 in
  let s3 := dispatch (TimerFires 0) s2 in
  map id (liveCalls s1) = ["live-7"] /\ liveCalls s2 = [] /\
  liveCalls s3 = [] /\ timers s3 = [].
Proof. vm_compute. repeat split; reflexivity. Qed.

(** ** The status dispatcher *)

Lemma handleCallAction_run callId action s :
  handleCallAction callId action s =
  (undefined,
   mkState (map (fun call =>
                   if id call =? callId
                   then with_status call
                          (if action =? "answer" then "active" else "on_hold")
                   else call) (liveCalls s))
           (selectedCall s) (isListening s) (isMuted s) (timers s)).
Proof. reflexivity. Qed.

(** C10. For an action string other than 'answer', [handleCallAction] keeps
    the array's length and order; a call whose id matches gets status
    on_hold whatever its status was, with its duration and identity fields
    kept, and a call with another id is left as it was; selection, flags and
    timers are untouched and nothing is handed back ([undefined]); no
    status is checked, so even a call that is already on_hold or is
    transferring is set to on_hold. *)
Theorem handleCallAction_other_action_holds
  (callId action : string) (s : State) (Hact : action <> "answer") :
  let s' := exec (handleCallAction callId action) s in
  Forall2 (fun c c' =>
             (id c = callId ->
              status c' = "on_hold" /\ duration c' = duration c /\
              same_identity c c') /\
             (id c <> callId -> c' = c))
          (liveCalls s) (liveCalls s') /\
  selectedCall s' = selectedCall s /\
  isListening s' = isListening s /\
  isMuted s' = isMuted s /\
  timers s' = timers s /\
  reply (handleCallAction callId action) s = undefined.
Proof.
  unfold exec, reply. rewrite handleCallAction_run. simpl.
  apply String.eqb_neq in Hact. rewrite Hact.
  repeat match goal with |- _ /\ _ => split end; try reflexivity.
  apply Forall2_map_self. intros c.
  destruct (String.eqb_spec (id c) callId) as [E|E]; split; intros H;
    try congruence.
  simpl. repeat split.
Qed.

Lemma handleCallAction_other_action_holds_witness :
  map (fun c => (id c, status c))
      (liveCalls (exec (handleCallAction "live-1" "hold") (initialState 0 0 0)))
  = [("live-1", "on_hold"); ("live-2", "active"); ("live-3", "on_hold")] /\
  reply (handleCallAction "live-1" "hold") (initialState 0 0 0) = undefined.
Proof.
  split; [reflexivity|].
  apply (handleCallAction_other_action_holds "live-1" "hold" (initialState 0 0 0)).
  discriminate.
Defined.

(** C1, as stated, fails.  On the initial array the call live-1 is active
    and [handleCallAction "live-1" "answer"] hands back [undefined], not an
    InvalidTransition outcome; and on a call that is transferring, for which
    the table's precondition of [answer] is not met either, the same action
    does modify the array (the status becomes active). *)
Lemma answer_reports_no_invalid_transition :
  let s := initialState 0 0 0 in
  let t := mkState [mkCall "live-7" "+91 1" "Incoming Call..." "Unknown"
                           "neutral" 4 0 "transferring"] None false false [] in
  map (fun c => (id c, status c)) (liveCalls s)
  = [("live-1", "active"); ("live-2", "active"); ("live-3", "on_hold")] /\
  reply (handleCallAction "live-1" "answer") s = undefined /\
  reply (handleCallAction "live-1" "answer") s <> outcome InvalidTransition /\
  table_precondition "answer" "transferring" = false /\
  map status (liveCalls (exec (handleCallAction "live-7" "answer") t))
  = ["active"] /\
  exec (handleCallAction "live-7" "answer") t <> t.
Proof.
  cbv zeta.
  repeat match goal with |- _ /\ _ => split end; try reflexivity;
    vm_compute; discriminate.
Qed.

Lemma rendered_iff c :
  (rendered c Answer = true <-> status c = "on_hold") /\
  (rendered c Listen = true <-> status c = "active") /\
  (rendered c Mute = true <-> status c = "active") /\
  rendered c EndCall = true.
Proof.
  simpl. repeat split; try apply String.eqb_eq.
Qed.

Lemma unmet_means_target action st :
  st = "active" \/ st = "on_hold" ->
  table_precondition action st = false ->
  st = (if action =? "answer" then "active" else "on_hold").
Proof.
  unfold table_precondition.
  intros [-> | ->]; destruct (action =? "answer"); simpl; congruence.
Qed.

(** C1, amended.  [handleCallAction] hands back nothing.  When every call
    carrying [callId] has status active or on_hold and does not meet the
    table's precondition of the action ([answer] needs on_hold, any other
    action needs active), [handleCallAction callId action] leaves the whole
    state unchanged; in particular [answer] on an id whose calls are active
    changes nothing.  A button is on a card only when the precondition of its
    action holds (Answer: on_hold; Listen and Mute: active), and a click on a
    button that is not on the card does not happen: the state stays as it
    is. *)
Theorem unmet_precondition_keeps_state
  (callId action : string) (s : State)
  (Hst : Forall (fun c => id c = callId ->
                   (status c = "active" \/ status c = "on_hold") /\
                   table_precondition action (status c) = false)
                (liveCalls s)) :
  handleCallAction callId action s = (undefined, s) /\
  (forall i b c, nth_error (liveCalls s) i = Some c ->
                 rendered c b = false -> dispatch (Click i b) s = s) /\
  (forall c, (rendered c Answer = true <-> status c = "on_hold") /\
             (rendered c Listen = true <-> status c = "active") /\
             (rendered c Mute = true <-> status c = "active")).
Proof.
  split; [|split].
  - rewrite handleCallAction_run. f_equal.
    rewrite map_fixed; [apply state_eta|].
    eapply Forall_impl; [|exact Hst]. intros c Hc; simpl in Hc.
    destruct (String.eqb_spec (id c) callId) as [E|E]; [|reflexivity].
    destruct (Hc E) as [Hs Hp].
    rewrite <- (unmet_means_target action (status c) Hs Hp).
    apply with_status_same.
  - intros i b c Hi Hb. simpl. now rewrite Hi, Hb.
  - intros c. pose proof (rendered_iff c) as H. tauto.
Qed.

Lemma unmet_precondition_keeps_state_witness :
  handleCallAction "live-1" "answer" (initialState 0 0 0)
  = (undefined, initialState 0 0 0).
Proof.
  apply (unmet_precondition_keeps_state "live-1" "answer" (initialState 0 0 0)).
  apply Forall_forall.
  intros c [<- | [<- | [<- | []]]]; simpl; intros H; try discriminate H.
  split; [left|]; reflexivity.
Defined.

(** ** Listen and Mute *)

(** C3, as stated, fails.  In the initial state live-1 and live-2 are both
    active; a click on the Mute button of the card of live-1 also turns the
    Mute button shown on the card of live-2 from plain to highlighted: the
    flag is one cell of the component, not a flag of one call. *)
Lemma mute_click_shows_on_other_call :
  let s := initialState 0 0 0 in
  let s' := dispatch (Click 0 Mute) s in
  exists c1 c2,
    nth_error (liveCalls s) 0 = Some c1 /\ id c1 = "live-1" /\
    nth_error (liveCalls s) 1 = Some c2 /\ id c2 = "live-2" /\
    nth_error (liveCalls s') 1 = Some c2 /\
    muteShown s c2 = Some false /\ muteShown s' c2 = Some true.
Proof.
  simpl. eexists _, _. repeat split; reflexivity.
Qed.

(** C3, amended.  [isMuted] and [isListening] are two cells of the component
    shared by all cards.  The card of a call whose status is on_hold has no
    Listen and no Mute button, so no such click happens and nothing is
    reported.  A click on the Mute (Listen) button of the card of an active
    call flips exactly [isMuted] ([isListening]) and hands back nothing: the
    array with every call's duration and status, the other cell, the
    selection and the timers stay as they are, and every card of an active
    call then shows the flipped value. *)
Theorem toggles_are_component_wide (s : State) (i : nat) (c : Call)
  (Hc : nth_error (liveCalls s) i = Some c) :
  (status c = "on_hold" ->
     muteShown s c = None /\ listenShown s c = None /\
     dispatch (Click i Mute) s = s /\ dispatch (Click i Listen) s = s) /\
  (status c = "active" ->
     dispatch (Click i Mute) s
     = mkState (liveCalls s) (selectedCall s) (isListening s)
               (negb (isMuted s)) (timers s) /\
     dispatch (Click i Listen) s
     = mkState (liveCalls s) (selectedCall s) (negb (isListening s))
               (isMuted s) (timers s) /\
     reply (onClick Mute c) s = undefined /\
     reply (onClick Listen c) s = undefined /\
     (forall c', status c' = "active" ->
        muteShown (dispatch (Click i Mute) s) c' = Some (negb (isMuted s)) /\
        listenShown (dispatch (Click i Listen) s) c'
        = Some (negb (isListening s)))).
Proof.
  split; intros Hs.
  - unfold muteShown, listenShown. simpl. rewrite Hc. simpl. now rewrite Hs.
  - unfold muteShown, listenShown. simpl. rewrite Hc. simpl. rewrite Hs. simpl.
    repeat split; intros; match goal with H : status _ = _ |- _ =>
      try rewrite H end; reflexivity.
Qed.

Lemma toggles_are_component_wide_witness :
  dispatch (Click 0 Mute) (initialState 0 0 0)
  = mkState (initialLiveCalls 0 0 0) None false true [].
Proof.
  eapply (proj2 (toggles_are_component_wide (initialState 0 0 0) 0 _ _)).
  Unshelve. 3: reflexivity. reflexivity.
Defined.

(** ** Commands on an id that is not in the array *)

(** C8, as stated, fails.  No call of the initial array has id live-404;
    [handleCallAction] and [endCall] on that id hand back [undefined], not a
    not-found outcome. *)
Lemma absent_id_reports_no_not_found :
  let s := initialState 0 0 0 in
  existsb (fun c => id c =? "live-404") (liveCalls s) = false /\
  reply (handleCallAction "live-404" "answer") s = undefined /\
  reply (handleCallAction "live-404" "answer") s <> outcome NotFound /\
  reply (endCall "live-404") s = undefined /\
  reply (endCall "live-404") s <> outcome NotFound.
Proof.
  cbv zeta.
  repeat match goal with |- _ /\ _ => split end; try reflexivity;
    vm_compute; discriminate.
Qed.

(** C8, amended.  For an id carried by no call of the array,
    [handleCallAction] with any action leaves the whole state unchanged and
    [endCall] leaves the array, both flags and the timers unchanged (it only
    clears a selection of that id); both run to completion and hand back
    nothing, with no not-found outcome.  Listen and Mute take no id: their
    buttons exist only on cards of calls in the array, and their handlers
    never touch the array. *)
Theorem absent_id_commands_change_nothing (callId : string) (s : State)
  (Habs : Forall (fun c => id c <> callId) (liveCalls s)) :
  (forall action, handleCallAction callId action s = (undefined, s)) /\
  reply (endCall callId) s = undefined /\
  liveCalls (exec (endCall callId) s) = liveCalls s /\
  isListening (exec (endCall callId) s) = isListening s /\
  isMuted (exec (endCall callId) s) = isMuted s /\
  timers (exec (endCall callId) s) = timers s /\
  (forall i b, dispatch (Click i b) s <> s ->
     exists c, nth_error (liveCalls s) i = Some c /\ id c <> callId) /\
  (forall c, liveCalls (exec (onClick Listen c) s) = liveCalls s /\
             liveCalls (exec (onClick Mute c) s) = liveCalls s).
Proof.
  repeat match goal with |- _ /\ _ => split end;
    try (unfold exec, reply; rewrite endCall_run; reflexivity).
  - intros action. rewrite handleCallAction_run. f_equal.
    rewrite map_fixed; [apply state_eta|].
    eapply Forall_impl; [|exact Habs]. intros c Hc; simpl in Hc.
    apply String.eqb_neq in Hc. now rewrite Hc.
  - unfold exec. rewrite endCall_run. simpl. now apply filter_absent_id.
  - intros i b Hd. simpl in Hd.
    destruct (nth_error (liveCalls s) i) as [c|] eqn:Hi; [|congruence].
    exists c. split; [reflexivity|].
    rewrite Forall_forall in Habs. apply Habs.
    eapply nth_error_In; eassumption.
  - intros c. split; reflexivity.
Qed.

Lemma absent_id_commands_change_nothing_witness :
  handleCallAction "live-404" "answer" (initialState 0 0 0)
  = (undefined, initialState 0 0 0).
Proof.
  apply (proj1 (absent_id_commands_change_nothing "live-404"
                  (initialState 0 0 0)
                  ltac:(repeat constructor; simpl; discriminate))).
Defined.

(** ** Durations never go down *)

Lemma Advance_refl l : Advance l l.
Proof.
  rewrite <- (map_id l) at 2.
  apply adv_map. intros c. split; [apply same_identity_refl | lia].
Qed.

Lemma Advance_nonneg l l' :
  Advance l l' -> Forall nonneg_duration l -> Forall nonneg_duration l'.
Proof.
  intros [g l0 Hg | p l0 | c l0 Hc] Hl.
  - apply Forall_map. eapply Forall_impl; [|exact Hl].
    intros c Hc. unfold nonneg_duration in *.
    destruct (Hg c) as [_ Hle]. lia.
  - apply Forall_forall. intros c Hc. apply filter_In in Hc.
    rewrite Forall_forall in Hl. now apply Hl.
  - apply Forall_app. split; [assumption|].
    constructor; [|constructor]. unfold nonneg_duration. lia.
Qed.

Lemma Advance_elements l l' :
  Advance l l' ->
  Forall (fun c' => (exists c, In c l /\ same_identity c c' /\
                                duration c <= duration c') \/
                    duration c' = 0) l'.
Proof.
  intros [g l0 Hg | p l0 | c l0 Hc]; apply Forall_forall; intros c' Hin.
  - apply in_map_iff in Hin. destruct Hin as [c0 [<- Hc0]].
    left. exists c0. destruct (Hg c0). auto.
  - apply filter_In in Hin. left. exists c'.
    repeat split; try tauto. lia.
  - apply in_app_or in Hin. destruct Hin as [Hin | [<- | []]].
    + left. exists c'. repeat split; auto. lia.
    + now right.
Qed.

Lemma dispatch_advance e s : Advance (liveCalls s) (liveCalls (dispatch e s)).
Proof.
  destruct e as [ | rarr now rnum started rlife | k | i b | i | ];
    cbn [dispatch].
  - unfold tick, exec; simpl. apply adv_map. intros c. split; [apply with_duration_identity|].
    simpl. lia.
  - rewrite simulate_liveCalls. destruct (arrives rarr).
    + now apply adv_append.
    + rewrite app_nil_r. apply Advance_refl.
  - destruct (nth_error (timers s) k) as [t|] eqn:Hk.
    + rewrite (timerCallback_liveCalls k t s Hk). apply adv_filter.
    + unfold timerCallback, exec, bind, get; simpl. rewrite Hk. apply Advance_refl.
  - destruct (nth_error (liveCalls s) i) as [c|]; [|apply Advance_refl].
    destruct (rendered c b); [|apply Advance_refl].
    destruct b; cbn [onClick].
    + unfold exec. rewrite handleCallAction_run. simpl.
      apply adv_map. intros c0.
      destruct (id c0 =? id c).
      * split; [apply with_status_identity | simpl; lia].
      * split; [apply same_identity_refl | lia].
    + apply Advance_refl.
    + apply Advance_refl.
    + unfold exec. rewrite endCall_run. simpl. apply adv_filter.
  - destruct (nth_error (liveCalls s) i); apply Advance_refl.
  - apply Advance_refl.
Qed.

Lemma run_snoc es e s : run (es ++ [e]) s = dispatch e (run es s).
Proof. unfold run. now rewrite fold_left_app. Qed.

Lemma run_advance es s : AdvanceStar (liveCalls s) (liveCalls (run es s)).
Proof.
  induction es as [|e es IH] using rev_ind.
  - apply adv_refl.
  - rewrite run_snoc. eapply adv_next; [exact IH | apply dispatch_advance].
Qed.

Lemma reachable_nonneg s : Reachable s -> Forall nonneg_duration (liveCalls s).
Proof.
  induction 1 as [t1 t2 t3 | e s _ IH].
  - simpl. repeat constructor; unfold nonneg_duration; simpl; lia.
  - eapply Advance_nonneg; [apply dispatch_advance | exact IH].
Qed.

(** C7. In every state the component can reach from its initial state by
    ticks, simulator runs, removal timers and clicks, every call has a
    duration >= 0.  Every single event changes the array in one of three
    ways only: each call rewritten in place with its identity fields kept
    and its duration not lowered, some calls removed with the survivors
    untouched, or one call of duration 0 appended; so a call of the new
    array either has duration 0 or comes from a call of the old array with
    the same identity and a duration that is not larger, and any sequence of
    events is a chain of such changes. *)
Theorem durations_nonneg_and_monotone (s : State) (Hs : Reachable s) :
  Forall (fun c => 0 <= duration c) (liveCalls s) /\
  (forall e,
     Advance (liveCalls s) (liveCalls (dispatch e s)) /\
     Forall (fun c => 0 <= duration c) (liveCalls (dispatch e s)) /\
     Forall (fun c' => (exists c, In c (liveCalls s) /\ same_identity c c' /\
                                   duration c <= duration c') \/
                       duration c' = 0)
            (liveCalls (dispatch e s))) /\
  (forall es, AdvanceStar (liveCalls s) (liveCalls (run es s))).
Proof.
  split; [exact (reachable_nonneg s Hs)|]. split.
  - intros e. split; [apply dispatch_advance|]. split.
    + exact (reachable_nonneg _ (reach_step e s Hs)).
    + apply Advance_elements, dispatch_advance.
  - intros es. apply run_advance.
Qed.

Lemma durations_nonneg_and_monotone_witness :
  Forall (fun c => 0 <= duration c)
         (liveCalls (dispatch Tick (initialState 0 0 0))).
Proof.
  apply (proj1 (durations_nonneg_and_monotone
                  (dispatch Tick (initialState 0 0 0))
                  (reach_step Tick _ (reach_init 0 0 0)))).
Defined.

(** ** The arrival simulator *)

Lemma simulate_run rarr now rnum started rlife s :
  simulate rarr now rnum started rlife s =
  (tt, if arrives rarr
       then mkState (liveCalls s ++ [newCall now rnum started])%list
                    (selectedCall s) (isListening s) (isMuted s)
                    (timers s ++ [mkTimer (lifespan rlife)
                                          ("live-" ++ show_Z now)])%list
       else s).
Proof.
  unfold simulate. destruct (arrives rarr); reflexivity.
Qed.

Lemma show_Z_injective a b : show_Z a = show_Z b -> a = b.
Proof.
  unfold show_Z. intros H.
  apply (f_equal NilEmpty.int_of_string) in H.
  rewrite !NilEmpty.isi in H. injection H as H.
  apply (f_equal Z.of_int) in H. now rewrite !DecimalZ.of_to in H.
Qed.

(** The id of an arriving call is built from the clock reading alone; a
    reading whose id is already on a card gives a second card with that
    id. *)
Example arrival_can_repeat_an_id :
  keys (dispatch (Simulate seven_eighths 1 one_half 1 one_quarter)
                 (initialState 0 0 0))
  = ["live-1"; "live-2"; "live-3"; "live-1"].
Proof. reflexivity. Qed.

(** The arithmetic of the simulator is that of doubles: a draw equal to
    the double 0.8 (which lies within half an ulp of 4/5) is not above it;
    at the largest draw below 1 the delay is exactly 40000; and the floor of
    the rounded product can be one more than the floor of the exact
    product. *)
Example doubles_at_the_edges :
  arrives at_threshold = false /\ arrives seven_eighths = true /\
  Z.abs (5 * 7205759403792794 - 4 * 2 ^ 53) * 2 <= 5 /\
  lifespan below_one = double_of_Z 40000 /\
  lifespan one_quarter = double_of_Z 17500 /\
  callerNumber (newCall 7 nine_tenths_up 7) = "+91 9000000001" /\
  callerNumber (newCall 7 one_half 7) = "+91 5000000000".
Proof. vm_compute. repeat split; reflexivity || discriminate. Qed.

(** ** Formatting a duration *)

Lemma string_length_app (a b : string) :
  String.length (a ++ b) = (String.length a + String.length b)%nat.
Proof. induction a as [|ch a IH]; simpl; [reflexivity|now rewrite IH]. Qed.

Lemma string_app_split (a b x y : string) :
  a ++ x = b ++ y -> String.length x = String.length y -> a = b /\ x = y.
Proof.
  revert b. induction a as [|ch a IH]; intros [|ch' b] H Hlen; simpl in H.
  - now split.
  - exfalso. subst x. simpl in Hlen. rewrite string_length_app in Hlen. lia.
  - exfalso. subst y. simpl in Hlen. rewrite string_length_app in Hlen. lia.
  - injection H as -> H. destruct (IH b H Hlen) as [-> ->]. now split.
Qed.

Lemma two_digits_below_sixty (r : Z) :
  0 <= r < 60 ->
  String.length (padStart0 2 (show_Z r)) = 2%nat /\
  read_Z (padStart0 2 (show_Z r)) = Some r.
Proof.
  intros Hr.
  assert (Hall : forallb two_digit_ok (seq 0 60) = true) by (vm_compute; reflexivity).
  rewrite forallb_forall in Hall.
  specialize (Hall (Z.to_nat r)).
  rewrite in_seq in Hall. specialize (Hall ltac:(lia)).
  unfold two_digit_ok in Hall. rewrite Z2Nat.id in Hall by lia.
  apply andb_true_iff in Hall. destruct Hall as [Hl Hd].
  apply Nat.eqb_eq in Hl. split; [exact Hl|].
  destruct (read_Z (padStart0 2 (show_Z r))) as [z|]; [|discriminate].
  apply Z.eqb_eq in Hd. now subst.
Qed.

Lemma formatDuration_shape (seconds : Z) :
  0 <= seconds ->
  let sec := padStart0 2 (show_Z (seconds mod 60)) in
  formatDuration seconds = show_Z (seconds / 60) ++ ":" ++ sec /\
  String.length sec = 2%nat /\
  read_Z sec = Some (seconds mod 60).
Proof.
  intros H sec. subst sec. unfold formatDuration.
  rewrite Z.rem_mod_nonneg by lia.
  split; [reflexivity|].
  apply two_digits_below_sixty. apply Z.mod_pos_bound. lia.
Qed.

(** X1. For a duration of at least 0 seconds, [formatDuration] prints the
    whole minutes in decimal, a colon, and then exactly two characters that
    read back as the seconds left over, a number from 0 to 59: minutes and
    seconds recombine to the duration. *)
Theorem formatDuration_minutes_and_two_digit_seconds (seconds : Z)
  (Hs : 0 <= seconds) :
  exists sec : string,
    formatDuration seconds = show_Z (seconds / 60) ++ ":" ++ sec /\
    String.length sec = 2%nat /\
    exists r, read_Z sec = Some r /\ 0 <= r < 60 /\
              60 * (seconds / 60) + r = seconds.
Proof.
  destruct (formatDuration_shape seconds Hs) as [Hf [Hl Hr]].
  eexists. split; [exact Hf|]. split; [exact Hl|].
  exists (seconds mod 60). split; [exact Hr|].
  pose proof (Z.mod_pos_bound seconds 60 ltac:(lia)).
  pose proof (Z.div_mod seconds 60 ltac:(lia)). lia.
Qed.

Lemma formatDuration_minutes_and_two_digit_seconds_witness :
  exists sec : string,
    formatDuration 125 = show_Z (125 / 60) ++ ":" ++ sec /\
    String.length sec = 2%nat /\
    exists r, read_Z sec = Some r /\ 0 <= r < 60 /\
              60 * (125 / 60) + r = 125.
Proof.
  apply (formatDuration_minutes_and_two_digit_seconds 125). lia.
Defined.

(** X2. Two different durations of at least 0 seconds are never printed the
    same way by [formatDuration]. *)
Theorem formatDuration_injective (a b : Z) (Ha : 0 <= a) (Hb : 0 <= b)
  (Heq : formatDuration a = formatDuration b) : a = b.
Proof.
  destruct (formatDuration_shape a Ha) as [Hfa [Hla Hra]].
  destruct (formatDuration_shape b Hb) as [Hfb [Hlb Hrb]].
  rewrite Hfa, Hfb in Heq.
  apply string_app_split in Heq.
  - destruct Heq as [Hm Hs].
    apply show_Z_injective in Hm.
    injection Hs as Hs. rewrite Hs, Hrb in Hra. injection Hra as Hra.
    pose proof (Z.div_mod a 60 ltac:(lia)).
    pose proof (Z.div_mod b 60 ltac:(lia)). lia.
  - simpl. now rewrite Hla, Hlb.
Qed.

Lemma formatDuration_injective_witness : 23 = 23.
Proof.
  apply (formatDuration_injective 23 23); [lia | lia | reflexivity].
Defined.

Example formatDuration_samples :
  map formatDuration [0; 23; 87; 125; 3600] =
  ["0:00"; "0:23"; "1:27"; "2:05"; "60:00"].
Proof. reflexivity. Qed.

(** ** Statuses and sentiments that occur *)

(** A property of calls that survives every way an event rewrites, drops or
    creates a call survives the event. *)
Lemma dispatch_keeps (P : Call -> Prop) (e : Event) (s : State) :
  (forall c d, P c -> P (with_duration c d)) ->
  (forall c, P c -> P (with_status c "active")) ->
  (forall now rnum started, P (newCall now rnum started)) ->
  Forall P (liveCalls s) -> Forall P (liveCalls (dispatch e s)).
Proof.
  intros Hd Ha Hn Hl.
  assert (Hfilter : forall p, Forall P (filter p (liveCalls s))).
  { intros p. apply Forall_forall. intros c Hc. apply filter_In in Hc.
    rewrite Forall_forall in Hl. now apply Hl. }
  destruct e as [ | rarr now rnum started rlife | k | i b | i | ];
    cbn [dispatch].
  - unfold tick, exec; simpl. apply Forall_map.
    eapply Forall_impl; [|exact Hl]. intros c Hc. now apply Hd.
  - rewrite simulate_liveCalls. apply Forall_app. split; [exact Hl|].
    destruct (arrives rarr); repeat constructor. apply Hn.
  - destruct (nth_error (timers s) k) as [t|] eqn:Hk.
    + rewrite (timerCallback_liveCalls k t s Hk). apply Hfilter.
    + unfold timerCallback, exec, bind, get; simpl. now rewrite Hk.
  - destruct (nth_error (liveCalls s) i) as [c|] eqn:Hi; [|exact Hl].
    destruct (rendered c b); [|exact Hl].
    destruct b; cbn [onClick]; try exact Hl.
    + unfold exec. rewrite handleCallAction_run. simpl.
      apply Forall_map. eapply Forall_impl; [|exact Hl]. intros c0 Hc0.
      destruct (id c0 =? id c); [now apply Ha | exact Hc0].
    + unfold exec. rewrite endCall_run. simpl. apply Hfilter.
  - destruct (nth_error (liveCalls s) i); exact Hl.
  - exact Hl.
Qed.

Lemma reachable_known s :
  Reachable s ->
  Forall (fun c => known_status c /\ known_sentiment c) (liveCalls s).
Proof.
  induction 1 as [t1 t2 t3 | e s _ IH].
  - unfold known_status, known_sentiment. simpl.
    repeat apply Forall_cons; try apply Forall_nil; split; simpl; auto.
  - apply dispatch_keeps; try exact IH;
      unfold known_status, known_sentiment; simpl; intros; auto; tauto.
Qed.

(** X3. In every state the component can reach, each call has status active
    or on_hold (never transferring or anything else) and sentiment positive
    or neutral; so each card offers either the Answer button or the Listen
    and Mute pair, never both and never neither, next to the End button. *)
Theorem reachable_statuses_closed (s : State) (Hs : Reachable s) :
  Forall (fun c =>
            (status c = "active" \/ status c = "on_hold") /\
            (sentiment c = "positive" \/ sentiment c = "neutral") /\
            rendered c Answer = negb (rendered c Listen) /\
            rendered c Mute = rendered c Listen /\
            rendered c EndCall = true)
         (liveCalls s).
Proof.
  eapply Forall_impl; [|exact (reachable_known s Hs)].
  intros c [Hst Hse]. split; [exact Hst|]. split; [exact Hse|].
  simpl. destruct Hst as [-> | ->]; repeat split; reflexivity.
Qed.

Lemma reachable_statuses_closed_witness :
  Forall (fun c =>
            (status c = "active" \/ status c = "on_hold") /\
            (sentiment c = "positive" \/ sentiment c = "neutral") /\
            rendered c Answer = negb (rendered c Listen) /\
            rendered c Mute = rendered c Listen /\
            rendered c EndCall = true)
         (liveCalls (dispatch (Click 2 Answer) (initialState 0 0 0))).
Proof.
  apply (reachable_statuses_closed _
           (reach_step (Click 2 Answer) _ (reach_init 0 0 0))).
Defined.

Lemma count_partition (l : list Call) :
  Forall known_status l ->
  (List.length (filter (fun call => (status call =? "active")%string) l) +
   List.length (filter (fun call => (status call =? "on_hold")%string) l)
   = List.length l)%nat.
Proof.
  induction 1 as [|c l Hc _ IH]; simpl; [reflexivity|].
  destruct Hc as [Hc | Hc]; rewrite Hc; simpl; lia.
Qed.

(** X4. In every reachable state the two counters of the stats account for
    every call: [activeCalls + waitingCalls] equals the number of cards, and
    the "No Active Calls" placeholder is shown exactly when both counters
    are 0. *)
Theorem reachable_stats_partition (s : State) (Hs : Reachable s) :
  (activeCalls (stats s) + waitingCalls (stats s)
   = List.length (liveCalls s))%nat /\
  (noCallsShown s = true <->
   activeCalls (stats s) = 0%nat /\ waitingCalls (stats s) = 0%nat).
Proof.
  assert (Hsum : (activeCalls (stats s) + waitingCalls (stats s)
                  = List.length (liveCalls s))%nat).
  { unfold stats; simpl. apply count_partition.
    eapply Forall_impl; [|exact (reachable_known s Hs)]. now intros c [H _]. }
  split; [exact Hsum|].
  unfold noCallsShown. rewrite Nat.eqb_eq. lia.
Qed.

Lemma reachable_stats_partition_witness :
  (activeCalls (stats (initialState 0 0 0)) +
   waitingCalls (stats (initialState 0 0 0))
   = List.length (liveCalls (initialState 0 0 0)))%nat.
Proof.
  apply (proj1 (reachable_stats_partition _ (reach_init 0 0 0))).
Defined.

(** ** The ticker and what is shown *)

Lemma filter_map_status (g : Call -> Call) (st : string) (l : list Call) :
  (forall c, status (g c) = status c) ->
  List.length (filter (fun call => status call =? st) (map g l))
  = List.length (filter (fun call => status call =? st) l).
Proof.
  intros Hg. induction l as [|c l IH]; simpl; [reflexivity|].
  rewrite Hg. destruct (status c =? st); simpl; now rewrite IH.
Qed.

(** X5. A tick of the duration ticker changes nothing that the stats, the
    card keys, the buttons or the details-panel selection depend on: the
    stats are the same before and after, so are the keys and the
    placeholder, and the call shown in the details panel is the same call
    with its duration advanced by one. *)
Theorem tick_keeps_stats_and_selection (s : State) :
  stats (exec tick s) = stats s /\
  keys (exec tick s) = keys s /\
  noCallsShown (exec tick s) = noCallsShown s /\
  panelOpen (exec tick s) = panelOpen s /\
  detailsCall (exec tick s)
  = option_map (fun c => with_duration c (duration c + 1)) (detailsCall s).
Proof.
  unfold stats, keys, noCallsShown, detailsCall, panelOpen, tick, exec; simpl.
  repeat match goal with |- _ /\ _ => split end.
  - rewrite !filter_map_status by reflexivity. reflexivity.
  - rewrite map_map. reflexivity.
  - now rewrite length_map.
  - reflexivity.
  - destruct (selectedCall s) as [x|]; [|reflexivity].
    destruct (negb (x =? "")); [|reflexivity].
    induction (liveCalls s) as [|c l IH]; simpl; [reflexivity|].
    destruct (id c =? x); [reflexivity | exact IH].
Qed.

(** ** How the operations compose *)

Lemma filter_map_comm {A} (p : A -> bool) (g : A -> A) (l : list A) :
  (forall x, p (g x) = p x) -> filter p (map g l) = map g (filter p l).
Proof.
  intros H. induction l as [|x l IH]; simpl; [reflexivity|].
  rewrite H. destruct (p x); simpl; now rewrite IH.
Qed.

Lemma filter_filter_comm {A} (p q : A -> bool) (l : list A) :
  filter p (filter q l) = filter q (filter p l).
Proof.
  induction l as [|x l IH]; simpl; [reflexivity|].
  destruct (p x) eqn:Hp, (q x) eqn:Hq; simpl; rewrite ?Hp, ?Hq, IH;
    reflexivity.
Qed.

Lemma tick_run s :
  exec tick s =
  mkState (map (fun call => with_duration call (duration call + 1))
               (liveCalls s))
          (selectedCall s) (isListening s) (isMuted s) (timers s).
Proof. reflexivity. Qed.

(** X6. The ticker commutes with the operator's actions: a tick followed by
    [endCall] or [handleCallAction] gives the same state as the action
    followed by the tick, so the order in which a tick and a click are
    processed does not matter. *)
Theorem tick_commutes_with_actions (callId action : string) (s : State) :
  exec tick (exec (endCall callId) s) = exec (endCall callId) (exec tick s) /\
  exec tick (exec (handleCallAction callId action) s)
  = exec (handleCallAction callId action) (exec tick s).
Proof.
  split.
  - unfold exec at 2 3. rewrite !endCall_run. rewrite !tick_run. simpl.
    f_equal. symmetry. apply filter_map_comm. reflexivity.
  - unfold exec at 2 3. rewrite !handleCallAction_run. rewrite !tick_run.
    simpl. f_equal. rewrite !map_map. apply map_ext. intros c. simpl.
    destruct (id c =? callId); reflexivity.
Qed.

(** X7. On one id the last status action wins: two [handleCallAction] calls
    in a row leave the state that the second alone would leave (so repeating
    an action changes nothing more), and [endCall] after a
    [handleCallAction] on the same id leaves the state that [endCall] alone
    would leave. *)
Theorem last_action_wins (callId a1 a2 : string) (s : State) :
  exec (handleCallAction callId a2) (exec (handleCallAction callId a1) s)
  = exec (handleCallAction callId a2) s /\
  exec (endCall callId) (exec (handleCallAction callId a1) s)
  = exec (endCall callId) s.
Proof.
  split.
  - unfold exec. rewrite !handleCallAction_run. simpl. f_equal.
    rewrite map_map. apply map_ext. intros c.
    destruct (id c =? callId) eqn:E; simpl; rewrite E; reflexivity.
  - unfold exec. rewrite !endCall_run, !handleCallAction_run. simpl. f_equal.
    rewrite filter_map_comm.
    + apply map_fixed. apply Forall_forall. intros c Hc.
      apply filter_In in Hc. destruct Hc as [_ Hc].
      unfold id_differs in Hc. apply negb_true_iff in Hc. now rewrite Hc.
    + intros c. unfold id_differs.
      destruct (id c =? callId) eqn:E; simpl; now rewrite E.
Qed.

(** X8. Actions on two different ids do not interfere: two
    [handleCallAction] calls, or a [handleCallAction] and an [endCall], give
    the same state in either order, and the array after two [endCall] calls
    does not depend on their order. *)
Theorem actions_on_other_ids_commute (i j a b : string) (s : State)
  (Hij : i <> j) :
  exec (handleCallAction i a) (exec (handleCallAction j b) s)
  = exec (handleCallAction j b) (exec (handleCallAction i a) s) /\
  exec (endCall i) (exec (handleCallAction j b) s)
  = exec (handleCallAction j b) (exec (endCall i) s) /\
  liveCalls (exec (endCall i) (exec (endCall j) s))
  = liveCalls (exec (endCall j) (exec (endCall i) s)).
Proof.
  repeat split.
  - unfold exec. rewrite !handleCallAction_run. simpl. f_equal.
    rewrite !map_map. apply map_ext. intros c.
    destruct (id c =? i) eqn:Ei, (id c =? j) eqn:Ej; simpl;
      rewrite ?Ei, ?Ej; try reflexivity.
    apply String.eqb_eq in Ei, Ej. congruence.
  - unfold exec. rewrite !endCall_run, !handleCallAction_run. simpl.
    f_equal. apply filter_map_comm. intros c. unfold id_differs.
    destruct (id c =? j); reflexivity.
  - unfold exec. rewrite !endCall_run. simpl.
    apply filter_filter_comm.
Qed.

Lemma actions_on_other_ids_commute_witness :
  exec (handleCallAction "live-1" "hold")
       (exec (handleCallAction "live-3" "answer") (initialState 0 0 0))
  = exec (handleCallAction "live-3" "answer")
         (exec (handleCallAction "live-1" "hold") (initialState 0 0 0)).
Proof.
  apply (proj1 (actions_on_other_ids_commute "live-1" "live-3" "hold" "answer"
                  (initialState 0 0 0) ltac:(discriminate))).
Defined.

(** ** Card keys *)

Lemma NoDup_snoc {A} (l : list A) (x : A) :
  NoDup l -> ~ In x l -> NoDup (l ++ [x]).
Proof.
  induction 1 as [|y l Hy Hl IH]; simpl; intros Hx.
  - constructor; [intros []|constructor].
  - constructor.
    + rewrite in_app_iff. simpl. intros [H | [H | []]]; [now apply Hy|].
      apply Hx. now left.
    + apply IH. intros H. apply Hx. now right.
Qed.

Lemma NoDup_keys_filter (p : Call -> bool) (l : list Call) :
  NoDup (map id l) -> NoDup (map id (filter p l)).
Proof.
  induction l as [|c l IH]; simpl; intros H; [constructor|].
  inversion H as [|x xs Hx Hxs]; subst.
  destruct (p c); simpl; [|now apply IH].
  constructor; [|now apply IH].
  intros Hin. apply Hx. apply in_map_iff in Hin.
  destruct Hin as [c0 [E Hc0]]. apply filter_In in Hc0.
  apply in_map_iff. exists c0. tauto.
Qed.

Lemma keys_map (g : Call -> Call) (l : list Call) :
  (forall c, id (g c) = id c) -> map id (map g l) = map id l.
Proof. intros H. rewrite map_map. apply map_ext. exact H. Qed.

(** X9. Card keys stay unique: if no two cards share an id, then after any
    event they still do not, provided that a call arriving with that event
    gets an id that no card carries.  Ticks, timers and clicks never create
    a duplicate key. *)
Theorem keys_stay_unique (e : Event) (s : State)
  (Hnd : NoDup (keys s)) (Hfresh : fresh_arrival e s) :
  NoDup (keys (dispatch e s)).
Proof.
  unfold keys in *.
  destruct e as [ | rarr now rnum started rlife | k | i b | i | ];
    cbn [dispatch].
  - unfold tick, exec; simpl. rewrite keys_map; [exact Hnd | reflexivity].
  - rewrite simulate_liveCalls. simpl in Hfresh.
    destruct (arrives rarr).
    + rewrite map_app. simpl. apply NoDup_snoc; [exact Hnd | now apply Hfresh].
    + now rewrite app_nil_r.
  - destruct (nth_error (timers s) k) as [t|] eqn:Hk.
    + rewrite (timerCallback_liveCalls k t s Hk). now apply NoDup_keys_filter.
    + unfold timerCallback, exec, bind, get; simpl. now rewrite Hk.
  - destruct (nth_error (liveCalls s) i) as [c|]; [|exact Hnd].
    destruct (rendered c b); [|exact Hnd].
    destruct b; cbn [onClick]; try exact Hnd.
    + unfold exec. rewrite handleCallAction_run. simpl.
      rewrite keys_map; [exact Hnd|].
      intros c0. destruct (id c0 =? id c); reflexivity.
    + unfold exec. rewrite endCall_run. simpl. now apply NoDup_keys_filter.
  - destruct (nth_error (liveCalls s) i); exact Hnd.
  - exact Hnd.
Qed.

Lemma keys_stay_unique_witness :
  NoDup (keys (dispatch (Simulate seven_eighths 7 one_half 7 one_quarter)
                        (initialState 0 0 0))).
Proof.
  apply keys_stay_unique.
  - unfold keys; simpl.
    repeat (constructor; [simpl; intuition discriminate|]). constructor.
  - simpl. intros _. vm_compute. intuition discriminate.
Defined.

Lemma nth_error_decompose {A} (l : list A) (i : nat) (x : A) :
  nth_error l i = Some x -> l = (firstn i l ++ x :: skipn (S i) l)%list.
Proof.
  revert i. induction l as [|y l IH]; intros [|i] H; simpl in H;
    try discriminate.
  - injection H as ->. reflexivity.
  - simpl. f_equal. now apply IH.
Qed.

Lemma unique_key_elsewhere (l1 l2 : list Call) (c : Call) :
  NoDup (map id (l1 ++ c :: l2)) ->
  Forall (fun c0 => id c0 <> id c) l1 /\ Forall (fun c0 => id c0 <> id c) l2.
Proof.
  rewrite map_app. simpl. intros H. apply NoDup_remove_2 in H.
  rewrite in_app_iff in H.
  split; apply Forall_forall; intros c0 Hc0 E; apply H; [left|right];
    apply in_map_iff; exists c0; auto.
Qed.

Lemma count_status_app st (l1 l2 : list Call) :
  List.length (filter (fun call => status call =? st) (l1 ++ l2))
  = (List.length (filter (fun call => (status call =? st)%string) l1) +
     List.length (filter (fun call => (status call =? st)%string) l2))%nat.
Proof. now rewrite filter_app, length_app. Qed.

(** X10. With unique card keys, a click on the Answer button of the [i]-th
    card (a call on hold) turns exactly that card to active and leaves every
    other card as it was; [activeCalls] goes up by one and [waitingCalls]
    down by one. *)
Theorem answer_click_moves_one_call (s : State) (i : nat) (c : Call)
  (Hnd : NoDup (keys s))
  (Hi : nth_error (liveCalls s) i = Some c)
  (Hst : status c = "on_hold") :
  let s' := dispatch (Click i Answer) s in
  liveCalls s' = (firstn i (liveCalls s) ++ with_status c "active"
                    :: skipn (S i) (liveCalls s))%list /\
  activeCalls (stats s') = S (activeCalls (stats s)) /\
  S (waitingCalls (stats s')) = waitingCalls (stats s).
Proof.
  intros s'. subst s'. cbn [dispatch]. rewrite Hi. simpl rendered.
  rewrite Hst. simpl String.eqb. cbn [onClick].
  unfold exec. rewrite handleCallAction_run. simpl snd.
  unfold stats, keys in *. cbn [liveCalls activeCalls waitingCalls].
  pose proof (nth_error_decompose _ _ _ Hi) as Hl.
  set (l1 := firstn i (liveCalls s)) in *.
  set (l2 := skipn (S i) (liveCalls s)) in *.
  rewrite Hl in Hnd. destruct (unique_key_elsewhere _ _ _ Hnd) as [H1 H2].
  assert (Hfix : forall l, Forall (fun c0 => id c0 <> id c) l ->
            map (fun call => if id call =? id c
                             then with_status call "active" else call) l = l).
  { intros l Hl0. apply map_fixed. eapply Forall_impl; [|exact Hl0].
    intros c0 Hc0. simpl in Hc0. apply String.eqb_neq in Hc0.
    now rewrite Hc0. }
  assert (Hmap : map (fun call => if id call =? id c
                                  then with_status call "active" else call)
                     (liveCalls s)
                 = (l1 ++ with_status c "active" :: l2)%list).
  { rewrite Hl at 1. rewrite map_app. simpl.
    rewrite (Hfix l1 H1), (Hfix l2 H2), String.eqb_refl. reflexivity. }
  simpl (if "answer" =? "answer" then _ else _).
  rewrite Hmap. split; [reflexivity|].
  rewrite Hl. rewrite !count_status_app. simpl. rewrite Hst. simpl.
  split; lia.
Qed.

Lemma answer_click_moves_one_call_witness :
  activeCalls (stats (dispatch (Click 2 Answer) (initialState 0 0 0)))
  = S (activeCalls (stats (initialState 0 0 0))).
Proof.
  assert (Hnd : NoDup (keys (initialState 0 0 0))).
  { unfold keys; simpl.
    repeat (constructor; [simpl; intuition discriminate|]). constructor. }
  exact (proj1 (proj2 (answer_click_moves_one_call (initialState 0 0 0) 2 _
                         Hnd eq_refl eq_refl))).
Defined.

(** X11. A click on the End button of the [i]-th card always removes that
    card and every card with the same id, so the array gets strictly
    shorter; with unique card keys exactly the [i]-th card goes and the
    others keep their order. *)
Theorem end_click_removes_card (s : State) (i : nat) (c : Call)
  (Hi : nth_error (liveCalls s) i = Some c) :
  let s' := dispatch (Click i EndCall) s in
  (List.length (liveCalls s') < List.length (liveCalls s))%nat /\
  Forall (fun c0 => id c0 <> id c) (liveCalls s') /\
  (NoDup (keys s) ->
   liveCalls s' = (firstn i (liveCalls s) ++ skipn (S i) (liveCalls s))%list).
Proof.
  intros s'. subst s'. cbn [dispatch]. rewrite Hi. simpl rendered.
  cbn [onClick]. unfold exec. rewrite endCall_run. simpl snd.
  cbn [liveCalls].
  pose proof (nth_error_decompose _ _ _ Hi) as Hl.
  set (l1 := firstn i (liveCalls s)) in *.
  set (l2 := skipn (S i) (liveCalls s)) in *.
  split; [|split].
  - rewrite Hl. rewrite filter_app, !length_app. simpl.
    unfold id_differs at 2. rewrite String.eqb_refl. simpl.
    pose proof (filter_length_le (id_differs (id c)) l1).
    pose proof (filter_length_le (id_differs (id c)) l2). lia.
  - apply filter_removes_id.
  - unfold keys. intros Hnd. rewrite Hl in Hnd.
    destruct (unique_key_elsewhere _ _ _ Hnd) as [H1 H2].
    rewrite Hl at 1. rewrite filter_app. simpl.
    unfold id_differs at 2. rewrite String.eqb_refl. simpl.
    now rewrite (filter_absent_id _ _ H1), (filter_absent_id _ _ H2).
Qed.

Lemma end_click_removes_card_witness :
  (List.length (liveCalls (dispatch (Click 1 EndCall) (initialState 0 0 0)))
   < List.length (liveCalls (initialState 0 0 0)))%nat.
Proof.
  exact (proj1 (end_click_removes_card (initialState 0 0 0) 1 _ eq_refl)).
Defined.

(** ** Removal timers *)

Lemma remove_nth_keeps {A} (ts : list A) (k : nat) (t t' : A) :
  nth_error ts k = Some t -> In t' ts -> t' <> t -> In t' (remove_nth k ts).
Proof.
  revert k. induction ts as [|x ts IH]; intros [|k] Hk Hin Hne;
    simpl in *; try contradiction.
  - injection Hk as ->. destruct Hin as [E | Hin]; [congruence | exact Hin].
  - destruct Hin as [E | Hin]; [now left | right]. now apply (IH k).
Qed.

Lemma remove_nth_length {A} (ts : list A) (k : nat) (t : A) :
  nth_error ts k = Some t ->
  S (List.length (remove_nth k ts)) = List.length ts.
Proof.
  revert k. induction ts as [|x ts IH]; intros [|k] Hk; simpl in *;
    try discriminate; [reflexivity|].
  f_equal. now apply IH.
Qed.

Lemma timer_invariant_step (e : Event) (s : State) :
  Forall (fun c => simulated c -> has_timer s c) (liveCalls s) ->
  Forall (fun c => simulated c -> has_timer (dispatch e s) c)
         (liveCalls (dispatch e s)).
Proof.
  intros H. rewrite Forall_forall in H. apply Forall_forall.
  destruct e as [ | rarr now rnum started rlife | k | i b | i | ];
    cbn [dispatch].
  - unfold tick, exec; simpl. intros c' Hin Hsim.
    apply in_map_iff in Hin. destruct Hin as [c [<- Hc]].
    exact (H c Hc Hsim).
  - unfold exec. rewrite simulate_run. simpl snd.
    destruct (arrives rarr); [|exact H].
    simpl. intros c Hin Hsim. apply in_app_or in Hin.
    destruct Hin as [Hin | [<- | []]].
    + destruct (H c Hin Hsim) as [t [Ht E]].
      exists t. split; [apply in_or_app; now left | exact E].
    + eexists. split; [apply in_or_app; right; left; reflexivity|].
      reflexivity.
  - unfold timerCallback, exec, bind, get. simpl.
    destruct (nth_error (timers s) k) as [t|] eqn:Hk; simpl; [|exact H].
    intros c Hin Hsim. apply filter_In in Hin. destruct Hin as [Hin Hd].
    apply id_differs_true in Hd.
    destruct (H c Hin Hsim) as [t' [Ht' E]].
    exists t'. split; [|exact E].
    apply (remove_nth_keeps _ _ t); auto. congruence.
  - destruct (nth_error (liveCalls s) i) as [c|]; [|exact H].
    destruct (rendered c b); [|exact H].
    destruct b; cbn [onClick]; try exact H.
    + unfold exec. rewrite handleCallAction_run. simpl.
      intros c' Hin Hsim. apply in_map_iff in Hin.
      destruct Hin as [c0 [<- Hc0]].
      destruct (id c0 =? id c); exact (H c0 Hc0 Hsim).
    + unfold exec. rewrite endCall_run. simpl.
      intros c' Hin Hsim. apply filter_In in Hin.
      exact (H c' (proj1 Hin) Hsim).
  - destruct (nth_error (liveCalls s) i); exact H.
  - exact H.
Qed.

Lemma reachable_timers s :
  Reachable s -> Forall (fun c => simulated c -> has_timer s c) (liveCalls s).
Proof.
  induction 1 as [t1 t2 t3 | e s _ IH].
  - unfold simulated. simpl.
    repeat apply Forall_cons; try apply Forall_nil; simpl; discriminate.
  - now apply timer_invariant_step.
Qed.

(** X12. In every reachable state, each call created by the simulator (told
    by its placeholder name) still has a pending removal timer aimed at its
    id; so when no timer is pending, no simulated call is on display.  A
    timer that fires is spent (one timer less) and leaves no card with the
    id it was aimed at. *)
Theorem simulated_calls_have_timers (s : State) (Hs : Reachable s) :
  Forall (fun c => callerName c = "Incoming Call..." ->
                   exists t, In t (timers s) /\ target t = id c)
         (liveCalls s) /\
  (timers s = [] ->
   Forall (fun c => callerName c <> "Incoming Call...") (liveCalls s)) /\
  (forall k t, nth_error (timers s) k = Some t ->
     S (List.length (timers (dispatch (TimerFires k) s)))
     = List.length (timers s) /\
     Forall (fun c => id c <> target t)
            (liveCalls (dispatch (TimerFires k) s))).
Proof.
  pose proof (reachable_timers s Hs) as H.
  split; [exact H|]. split.
  - intros Hnil. eapply Forall_impl; [|exact H].
    intros c Hc Hname. destruct (Hc Hname) as [t [Hin _]].
    rewrite Hnil in Hin. exact Hin.
  - intros k t Hk. cbn [dispatch]. split.
    + unfold timerCallback, exec, bind, get. simpl. rewrite Hk. simpl.
      now apply (remove_nth_length _ _ t).
    + rewrite (timerCallback_liveCalls k t s Hk). apply filter_removes_id.
Qed.

Lemma simulated_calls_have_timers_witness :
  Forall (fun c => callerName c = "Incoming Call..." ->
                   exists t,
                     In t (timers (dispatch
                                     (Simulate seven_eighths 7 one_half 7 one_quarter)
                                     (initialState 0 0 0))) /\
                     target t = id c)
         (liveCalls (dispatch (Simulate seven_eighths 7 one_half 7 one_quarter)
                              (initialState 0 0 0))).
Proof.
  apply (proj1 (simulated_calls_have_timers _
                  (reach_step (Simulate seven_eighths 7 one_half 7 one_quarter) _
                              (reach_init 0 0 0)))).
Defined.

(** ** Clearing the board *)

Lemma run_cons e es s : run (e :: es) s = run es (dispatch e s).
Proof. reflexivity. Qed.

Lemma end_first_card_shrinks (s : State) (n : nat) :
  (List.length (liveCalls s) <= S n)%nat ->
  (List.length (liveCalls (dispatch (Click 0 EndCall) s)) <= n)%nat.
Proof.
  intros H. cbn [dispatch].
  destruct (liveCalls s) as [|c l] eqn:Hl; simpl nth_error.
  - cbv iota. rewrite Hl. simpl. lia.
  - cbv iota. simpl rendered. cbv iota. cbn [onClick]. unfold exec.
    rewrite endCall_run. simpl snd. cbn [liveCalls]. rewrite Hl. simpl.
    unfold id_differs at 1. rewrite String.eqb_refl. simpl.
    pose proof (filter_length_le (id_differs (id c)) l). simpl in H. lia.
Qed.

Lemma end_clicks_empty (n : nat) : forall s,
  (List.length (liveCalls s) <= n)%nat ->
  liveCalls (run (repeat (Click 0 EndCall) n) s) = [].
Proof.
  induction n as [|n IH]; intros s H.
  - simpl. destruct (liveCalls s); [reflexivity | simpl in H; lia].
  - simpl repeat. rewrite run_cons. apply IH.
    now apply end_first_card_shrinks.
Qed.

(** X13. Whatever the state, clicking the End button of the first card as
    many times as there are cards empties the array: the "No Active Calls"
    placeholder is then shown and both counters of the stats are 0. *)
Theorem end_clicks_clear_the_board (s : State) :
  let s' := run (repeat (Click 0 EndCall) (List.length (liveCalls s))) s in
  liveCalls s' = [] /\ noCallsShown s' = true /\
  activeCalls (stats s') = 0%nat /\ waitingCalls (stats s') = 0%nat.
Proof.
  intros s'.
  assert (H : liveCalls s' = []) by (apply end_clicks_empty; lia).
  unfold noCallsShown, stats. rewrite H. repeat split; reflexivity.
Qed.

(** ** The details panel *)

Lemma reachable_live_prefixed s :
  Reachable s -> Forall live_prefixed (liveCalls s).
Proof.
  induction 1 as [t1 t2 t3 | e s _ IH].
  - unfold live_prefixed. simpl.
    repeat apply Forall_cons; try apply Forall_nil; simpl;
      eexists; reflexivity.
  - apply dispatch_keeps; try exact IH; unfold live_prefixed; simpl;
      intros; eauto.
Qed.

Lemma find_first (x : string) (l1 l2 : list Call) (c : Call) :
  Forall (fun c0 => id c0 <> x) l1 -> id c = x ->
  find (fun c0 => id c0 =? x) (l1 ++ c :: l2) = Some c.
Proof.
  intros H Hc. induction H as [|c0 l1 Hc0 _ IH]; simpl.
  - apply String.eqb_eq in Hc. now rewrite Hc.
  - apply String.eqb_neq in Hc0. now rewrite Hc0.
Qed.

Lemma find_present (x : string) (l : list Call) (c : Call) :
  In c l -> id c = x ->
  exists c', find (fun c0 => id c0 =? x) l = Some c' /\ id c' = x.
Proof.
  intros Hin Hc. induction l as [|c0 l IH]; simpl in *; [contradiction|].
  destruct (String.eqb_spec (id c0) x) as [E|E].
  - exists c0. now split.
  - destruct Hin as [-> | Hin]; [contradiction | now apply IH].
Qed.

Lemma find_absent (x : string) (l : list Call) :
  Forall (fun c0 => id c0 <> x) l -> find (fun c0 => id c0 =? x) l = None.
Proof.
  induction 1 as [|c0 l Hc0 _ IH]; simpl; [reflexivity|].
  apply String.eqb_neq in Hc0. now rewrite Hc0.
Qed.

Lemma find_after_filter (x y : string) (l : list Call) :
  x <> y ->
  find (fun c0 => id c0 =? x) (filter (id_differs y) l)
  = find (fun c0 => id c0 =? x) l.
Proof.
  intros Hxy. induction l as [|c0 l IH]; simpl; [reflexivity|].
  unfold id_differs at 1.
  destruct (String.eqb_spec (id c0) y) as [Ey|Ey]; simpl.
  - destruct (String.eqb_spec (id c0) x) as [Ex|Ex]; [congruence | exact IH].
  - now rewrite IH.
Qed.

(** X15. In a reachable state, a click on the [i]-th card selects its id,
    opens the details panel and leaves the array alone; the panel shows a
    call with that id, and with unique card keys it shows exactly the call
    of the clicked card. *)
Theorem select_card_opens_details (s : State) (i : nat) (c : Call)
  (Hs : Reachable s) (Hi : nth_error (liveCalls s) i = Some c) :
  let s' := dispatch (SelectCard i) s in
  selectedCall s' = Some (id c) /\
  panelOpen s' = true /\
  liveCalls s' = liveCalls s /\
  (exists c', detailsCall s' = Some c' /\ id c' = id c) /\
  (NoDup (keys s) -> detailsCall s' = Some c).
Proof.
  intros s'. subst s'. cbn [dispatch]. rewrite Hi.
  unfold exec, setSelectedCall, detailsCall, panelOpen. simpl.
  assert (Hne : (id c =? "") = false).
  { pose proof (reachable_live_prefixed s Hs) as Hp.
    rewrite Forall_forall in Hp.
    destruct (Hp c (nth_error_In _ _ Hi)) as [rest E].
    rewrite E. reflexivity. }
  rewrite Hne. simpl.
  repeat split.
  - apply (find_present (id c) (liveCalls s) c); [|reflexivity].
    eapply nth_error_In; eassumption.
  - unfold keys. intros Hnd.
    pose proof (nth_error_decompose _ _ _ Hi) as Hl.
    rewrite Hl in Hnd. destruct (unique_key_elsewhere _ _ _ Hnd) as [H1 _].
    rewrite Hl. now apply find_first.
Qed.

Lemma select_card_opens_details_witness :
  selectedCall (dispatch (SelectCard 1) (initialState 0 0 0))
  = Some "live-2".
Proof.
  exact (proj1 (select_card_opens_details (initialState 0 0 0) 1 _
                  (reach_init 0 0 0) eq_refl)).
Defined.

(** X16. A click on the End button of a card closes the details panel when
    that card's call is the selected one, and otherwise leaves the selection
    and the call shown in the panel exactly as they were. *)
Theorem end_click_and_details (s : State) (i : nat) (c : Call)
  (Hi : nth_error (liveCalls s) i = Some c) :
  let s' := dispatch (Click i EndCall) s in
  (selectedCall s = Some (id c) ->
   selectedCall s' = None /\ panelOpen s' = false /\ detailsCall s' = None) /\
  (selectedCall s <> Some (id c) ->
   selectedCall s' = selectedCall s /\ panelOpen s' = panelOpen s /\
   detailsCall s' = detailsCall s).
Proof.
  intros s'. subst s'. cbn [dispatch]. rewrite Hi. simpl rendered. cbv iota.
  cbn [onClick]. unfold exec. rewrite endCall_run. simpl snd.
  unfold detailsCall, panelOpen. cbn [selectedCall liveCalls].
  split.
  - intros Hsel. rewrite Hsel. simpl. rewrite String.eqb_refl.
    repeat split.
  - intros Hsel. destruct (selectedCall s) as [x|] eqn:Hx; simpl.
    + destruct (String.eqb_spec x (id c)) as [E|E]; [congruence|].
      repeat split.
      destruct (negb (x =? "")); [|reflexivity].
      now apply find_after_filter.
    + repeat split.
Qed.

Lemma end_click_and_details_witness :
  selectedCall
    (dispatch (Click 1 EndCall) (dispatch (SelectCard 1) (initialState 0 0 0)))
  = None.
Proof.
  refine (proj1 (proj1 (end_click_and_details
                          (dispatch (SelectCard 1) (initialState 0 0 0)) 1 _
                          eq_refl) _)).
  reflexivity.
Defined.

(** X17. A removal timer never touches the selection: when it removes the
    selected call, the selection still names that id, so the details panel
    stays open but finds no call to show. *)
Theorem timer_leaves_panel_without_call (s : State) (k : nat) (t : Timer)
  (Hk : nth_error (timers s) k = Some t)
  (Hsel : selectedCall s = Some (target t))
  (Hne : target t <> "") :
  let s' := dispatch (TimerFires k) s in
  selectedCall s' = Some (target t) /\
  panelOpen s' = true /\
  detailsCall s' = None.
Proof.
  intros s'. subst s'. cbn [dispatch].
  unfold timerCallback, exec, bind, get. simpl. rewrite Hk. simpl.
  unfold detailsCall, panelOpen. simpl. rewrite Hsel.
  apply String.eqb_neq in Hne. rewrite Hne. simpl.
  repeat split. apply find_absent, filter_removes_id.
Qed.

Lemma timer_leaves_panel_without_call_witness :
  let s := dispatch (SelectCard 3)
             (dispatch (Simulate seven_eighths 7 one_half 7 one_quarter)
                       (initialState 0 0 0)) in
  panelOpen (dispatch (TimerFires 0) s) = true /\
  detailsCall (dispatch (TimerFires 0) s) = None.
Proof.
  cbv zeta.
  refine (proj2 (timer_leaves_panel_without_call
                   (dispatch (SelectCard 3)
                      (dispatch (Simulate seven_eighths 7 one_half 7 one_quarter)
                                (initialState 0 0 0)))
                   0 _ eq_refl eq_refl _)).
  vm_compute. discriminate.
Defined.

(** ** Arrivals, ticks and the counters *)

(** X18. A simulator run that lets a call arrive adds one card at the end,
    raises [waitingCalls] by one, leaves [activeCalls] as it was and adds one
    pending timer; a run without arrival changes nothing. *)
Theorem arrival_raises_waiting (rarr : Draw) (now : Z) (rnum : Draw)
  (started : Z) (rlife : Draw) (s : State) :
  let s' := dispatch (Simulate rarr now rnum started rlife) s in
  (arrives rarr = true ->
   waitingCalls (stats s') = S (waitingCalls (stats s)) /\
   activeCalls (stats s') = activeCalls (stats s) /\
   List.length (liveCalls s') = S (List.length (liveCalls s)) /\
   List.length (timers s') = S (List.length (timers s)) /\
   noCallsShown s' = false) /\
  (arrives rarr = false -> s' = s).
Proof.
  intros s'. subst s'. cbn [dispatch]. unfold exec. rewrite simulate_run.
  simpl snd. split; intros Ha; rewrite Ha; [|reflexivity].
  unfold stats, noCallsShown. cbn [liveCalls timers waitingCalls activeCalls].
  rewrite !count_status_app, !length_app. simpl.
  repeat split; try lia.
  destruct (List.length (liveCalls s) + 1)%nat eqn:E; [lia | reflexivity].
Qed.

Lemma arrival_raises_waiting_witness :
  waitingCalls (stats (dispatch (Simulate seven_eighths 7 one_half 7 one_quarter)
                                (initialState 0 0 0)))
  = S (waitingCalls (stats (initialState 0 0 0))).
Proof.
  refine (proj1 (proj1 (arrival_raises_waiting seven_eighths 7 one_half 7 one_quarter
                          (initialState 0 0 0)) _)).
  reflexivity.
Defined.

Lemma ticks_liveCalls (n : nat) : forall s,
  liveCalls (run (repeat Tick n) s)
  = map (fun c => with_duration c (duration c + Z.of_nat n)) (liveCalls s).
Proof.
  induction n as [|n IH]; intros s.
  - simpl. symmetry. apply map_fixed. apply Forall_forall. intros c _.
    destruct c; simpl. now rewrite Z.add_0_r.
  - simpl repeat. rewrite run_cons, IH. cbn [dispatch].
    rewrite tick_run. cbn [liveCalls]. rewrite map_map. apply map_ext.
    intros c. unfold with_duration; simpl. f_equal. lia.
Qed.

(** X19. After [n] ticks in a row every call has its duration raised by
    exactly [n] and all its other fields unchanged; the stats are what they
    were. *)
Theorem n_ticks_add_n (n : nat) (s : State) :
  let s' := run (repeat Tick n) s in
  Forall2 (fun c c' => duration c' = duration c + Z.of_nat n /\
                       status c' = status c /\ same_identity c c')
          (liveCalls s) (liveCalls s') /\
  stats s' = stats s.
Proof.
  intros s'. subst s'. split.
  - rewrite ticks_liveCalls. apply Forall2_map_self. intros c.
    simpl. repeat split.
  - unfold stats. rewrite ticks_liveCalls.
    rewrite !filter_map_status by reflexivity. reflexivity.
Qed.

End LiveCalls.
